(** * SamServerlessApplicationProvider

    A shallow embedding of
    [samcli/lib/providers/sam_serverless_application_provider.py]:
    the provider that indexes the [AWS::Serverless::Application] resources
    of a resolved SAM template and answers [get] and [get_all].

    Reading conventions.
    - A mapping ([dict]) is an object with an identity: it lives in a heap
      and template data refer to it by address, so that a mapping reached
      along two paths is one object and a write into it shows along both.
      Its entries are kept in insertion order.
    - A method that can raise returns a [Result]; a method that can write
      into the template takes the heap and returns the heap it leaves.
    - [self] is a record of attribute slots, [None] when the attribute has
      not been assigned on the object.
    - Line 165 of the source lacks the comma between the keyword arguments
      [location=location] and [notification_arns=...]; the call is read as
      the list of keyword arguments it lays out. *)

From Stdlib Require Import String List ZArith PeanoNat.
Import ListNotations.
Open Scope string_scope.

(** ** Python values *)

Definition Addr : Type := nat.

(** [PyRef a] is a reference to the object at address [a]. *)
#[warnings="-register-all"]
Inductive PyVal : Type :=
| PyNone
| PyBool (b : bool)
| PyInt (z : Z)
| PyStr (s : string)
| PyList (l : list PyVal)
| PyRef (a : Addr).

(** [v == s] for a [str] constant [s]. *)
Definition py_eq_str (v : PyVal) (s : string) : bool :=
  match v with
  | PyStr s' => String.eqb s' s
  | _ => false
  end.

(** ** Dictionaries in insertion order *)

Definition Dict (V : Type) : Type := list (string * V).

Fixpoint dict_get {V : Type} (d : Dict V) (k : string) : option V :=
  match d with
  | [] => None
  | (k', v) :: rest => if String.eqb k' k then Some v else dict_get rest k
  end.

(** [d[k] = v]: an existing key keeps its position, a new key goes last. *)
Fixpoint dict_set {V : Type} (d : Dict V) (k : string) (v : V) : Dict V :=
  match d with
  | [] => [(k, v)]
  | (k', v') :: rest =>
      if String.eqb k' k then (k', v) :: rest else (k', v') :: dict_set rest k v
  end.

Definition dict_keys {V : Type} (d : Dict V) : list string := map fst d.
Definition dict_values {V : Type} (d : Dict V) : list V := map snd d.

(** The value of [d.get(k, default)]. *)
Definition property (d : Dict PyVal) (k : string) (default : PyVal) : PyVal :=
  match dict_get d k with Some x => x | None => default end.

(** ** The heap of mappings *)

(** The mapping at address [a] is the [a]-th element; an address beyond the
    heap holds an object that is no mapping. *)
Definition Heap : Type := list (Dict PyVal).

Definition heap_get (h : Heap) (a : Addr) : option (Dict PyVal) :=
  nth_error h a.

(** The heap with [d] as the mapping at address [a]. *)
Fixpoint heap_set (h : Heap) (a : Addr) (d : Dict PyVal) : Heap :=
  match h, a with
  | [], _ => []
  | _ :: rest, O => d :: rest
  | x :: rest, S a' => x :: heap_set rest a' d
  end.

(** An object as a method sees it: [Some d] for a mapping with the entries
    [d], [None] for any object that is no mapping. *)
Definition Object : Type := option (Dict PyVal).

Definition deref (h : Heap) (v : PyVal) : Object :=
  match v with
  | PyRef a => heap_get h a
  | _ => None
  end.

(** Truth value of an object, as tested by [if x:]. *)
Definition truthy (h : Heap) (v : PyVal) : bool :=
  match v with
  | PyNone => false
  | PyBool b => b
  | PyInt z => negb (Z.eqb z 0)
  | PyStr s => negb (String.eqb s "")
  | PyList l => match l with [] => false | _ :: _ => true end
  | PyRef a =>
      match heap_get h a with
      | Some [] => false
      | _ => true
      end
  end.

(** ** Exceptions *)

Inductive Exc : Type :=
| ValueError (msg : string)
| AttributeError
| TypeError
| NameError (name : string)
| RuntimeError.

Inductive Result (A : Type) : Type :=
| Ok (a : A)
| Raise (e : Exc).

Arguments Ok {A} a.
Arguments Raise {A} e.

Definition bind {A B : Type} (m : Result A) (k : A -> Result B) : Result B :=
  match m with
  | Ok a => k a
  | Raise e => Raise e
  end.

Notation "x <- m ;; k" := (bind m (fun x => k))
  (at level 61, m at next level, right associativity).

(** ** Operations on objects of unknown type *)

(** [o.get(k, default)]: only a mapping has the method. *)
Definition obj_get (o : Object) (k : string) (default : PyVal)
  : Result PyVal :=
  match o with
  | Some d => Ok (property d k default)
  | None => Raise AttributeError
  end.

Definition py_get (h : Heap) (v : PyVal) (k : string) (default : PyVal)
  : Result PyVal :=
  obj_get (deref h v) k default.

(** [v[k] = x] with a [str] key: only a mapping accepts it, and the write
    is made into the object [v] refers to. *)
Definition py_setitem (h : Heap) (v : PyVal) (k : string) (x : PyVal)
  : Heap * Result unit :=
  match v with
  | PyRef a =>
      match heap_get h a with
      | Some d => (heap_set h a (dict_set d k x), Ok tt)
      | None => (h, Raise TypeError)
      end
  | _ => (h, Raise TypeError)
  end.

(** [len(v)]. *)
Definition py_len (h : Heap) (v : PyVal) : Result nat :=
  match v with
  | PyStr s => Ok (String.length s)
  | PyList l => Ok (List.length l)
  | PyRef a =>
      match heap_get h a with
      | Some d => Ok (List.length d)
      | None => Raise TypeError
      end
  | _ => Raise TypeError
  end.

(** ** The configuration record *)

Module ServerlessApplication.

(** Modelled from the spec: the [ServerlessApplication] named tuple is not
    declared under the provider's file.  Its fields are the keyword
    arguments of the constructor call in
    [_build_serverless_application_configuration], plus the optional
    display name ([applicationname]) that [get] reads and that the spec's
    data model lists as "optional user-given name distinct from identity;
    zero or one per record". *)
Record t : Type := mk {
  name : string;
  applicationname : option string;
  location : PyVal;
  notification_arns : PyVal;
  parameters : PyVal;
  tags : PyVal;
  timeout : PyVal
}.

End ServerlessApplication.

(** The index built at construction: logical id to record. *)
Definition Index : Type := Dict ServerlessApplication.t.

(** ** What the provider takes from outside its file *)

(** The base class [SamBaseProvider] (module [.sam_base_provider]) gives the
    type tag the provider recognises and the template pre-processing, which
    may itself read and write the heap. *)
Class SamBaseProvider : Type := {
  SERVERLESS_APPLICATION : string;
  get_template : Heap -> PyVal -> PyVal -> Heap * Result PyVal
}.

(** ** The provider object *)

Record Instance : Type := {
  template_dict : option PyVal;
  ignore_code_extraction_warnings : option bool;
  resources : option PyVal;
  functions : option Index;
  applications : option Index;
  _colored : option unit
}.

(** The object before [__init__] runs: no attribute is set. *)
Definition new_instance : Instance :=
  {| template_dict := None;
     ignore_code_extraction_warnings := None;
     resources := None;
     functions := None;
     applications := None;
     _colored := None |}.

(** [self.template_dict = t] *)
Definition set_template_dict (t : PyVal) (self : Instance) : Instance :=
  {| template_dict := Some t;
     ignore_code_extraction_warnings := ignore_code_extraction_warnings self;
     resources := resources self;
     functions := functions self;
     applications := applications self;
     _colored := _colored self |}.

(** [self.ignore_code_extraction_warnings = b] *)
Definition set_ignore_code_extraction_warnings (b : bool) (self : Instance)
  : Instance :=
  {| template_dict := template_dict self;
     ignore_code_extraction_warnings := Some b;
     resources := resources self;
     functions := functions self;
     applications := applications self;
     _colored := _colored self |}.

(** [self.resources = rs] *)
Definition set_resources (rs : PyVal) (self : Instance) : Instance :=
  {| template_dict := template_dict self;
     ignore_code_extraction_warnings := ignore_code_extraction_warnings self;
     resources := Some rs;
     functions := functions self;
     applications := applications self;
     _colored := _colored self |}.

(** [self.functions = d] *)
Definition set_functions (d : Index) (self : Instance) : Instance :=
  {| template_dict := template_dict self;
     ignore_code_extraction_warnings := ignore_code_extraction_warnings self;
     resources := resources self;
     functions := Some d;
     applications := applications self;
     _colored := _colored self |}.

(** [self._colored = Colored()] *)
Definition set__colored (c : unit) (self : Instance) : Instance :=
  {| template_dict := template_dict self;
     ignore_code_extraction_warnings := ignore_code_extraction_warnings self;
     resources := resources self;
     functions := functions self;
     applications := applications self;
     _colored := Some c |}.

Section Provider.

Context {base : SamBaseProvider}.

(** The body is the call [ServerlessApplication(name=..., ...)].  A call
    evaluates the callee before its arguments, and the module binds no name
    [ServerlessApplication]: its imports are lines 4 to 12, and line 11,
    which names the provider module, is a comment.  The call therefore
    raises [NameError], and the keyword arguments (the reads of
    [NotificationARNs] with default [ZIP], of [Parameters], [Tags] and
    [TimeoutInMinutes]) are not evaluated. *)
Definition _build_serverless_application_configuration
    (name : string) (location : PyVal) (resource_properties : Object)
  : Result ServerlessApplication.t :=
  Raise (NameError "ServerlessApplication").

(** The method only reads [resource_properties], which is passed as the
    object it is when the call is made. *)
Definition _convert_sam_serverless_application_resource
    (name : string) (resource_properties : Object)
    (ignore_code_extraction_warnings : bool)
  : Result ServerlessApplication.t :=
  location <- obj_get resource_properties "Location" PyNone ;;
  _build_serverless_application_configuration
    name location resource_properties.

(** One turn of the loop of [_extract_serverless_applications] on the item
    [(name, resource)].  It returns the heap as the turn leaves it and the
    updated [result], or the exception that ends the loop.

    [resource_properties] is the very object stored under ["Properties"]
    when the resource has that key, and the assignment
    [resource_properties["Metadata"] = resource_metadata] is then a write
    into that object.  Otherwise it is a fresh [{}] that nothing else
    refers to and that is dropped at the end of the turn; it is kept out of
    the heap. *)
Definition extract_item (ignore_code_extraction_warnings : bool)
    (h : Heap) (name : string) (resource : PyVal) (result : Index)
  : Heap * Result Index :=
  match deref h resource with
  | None => (h, Raise AttributeError)
  | Some fields =>
      let resource_type := property fields "Type" PyNone in
      let resource_metadata := property fields "Metadata" PyNone in
      match dict_get fields "Properties" with
      | Some resource_properties =>
          let (h', written) :=
            if truthy h resource_metadata then
              py_setitem h resource_properties "Metadata" resource_metadata
            else (h, Ok tt) in
          match written with
          | Raise e => (h', Raise e)
          | Ok _ =>
              if py_eq_str resource_type SERVERLESS_APPLICATION then
                (h',
                 app <- _convert_sam_serverless_application_resource
                          name (deref h' resource_properties)
                          ignore_code_extraction_warnings ;;
                 Ok (dict_set result name app))
              else (h', Ok result)
          end
      | None =>
          let fresh :=
            if truthy h resource_metadata
            then [("Metadata", resource_metadata)]
            else [] in
          if py_eq_str resource_type SERVERLESS_APPLICATION then
            (h,
             app <- _convert_sam_serverless_application_resource
                      name (Some fresh) ignore_code_extraction_warnings ;;
             Ok (dict_set result name app))
          else (h, Ok result)
      end
  end.

(** [for name, resource in resources.items(): ...], with [remaining] items
    still to visit out of the [size] the mapping had when the iteration
    began.  Each step of the iterator first compares the size of the
    mapping with [size] and raises [RuntimeError] ("dictionary changed size
    during iteration") when they differ, then reads the next entry of the
    mapping as it is now. *)
Fixpoint extract_loop (ignore_code_extraction_warnings : bool)
    (h : Heap) (resources : PyVal) (size remaining : nat) (result : Index)
  : Heap * Result Index :=
  match deref h resources with
  | None => (h, Raise AttributeError)
  | Some d =>
      if negb (Nat.eqb (List.length d) size) then (h, Raise RuntimeError)
      else
        match remaining with
        | O => (h, Ok result)
        | S remaining' =>
            match nth_error d (size - remaining) with
            | None => (h, Ok result)
            | Some (name, resource) =>
                match extract_item ignore_code_extraction_warnings
                        h name resource result with
                | (h', Ok result') =>
                    extract_loop ignore_code_extraction_warnings
                      h' resources size remaining' result'
                | (h', Raise e) => (h', Raise e)
                end
            end
        end
  end.

(** Returns the heap as the call leaves it, and the index. *)
Definition _extract_serverless_applications
    (h : Heap) (resources : PyVal) (ignore_code_extraction_warnings : bool)
  : Heap * Result Index :=
  match deref h resources with
  | Some d =>
      extract_loop ignore_code_extraction_warnings
        h resources (List.length d) (List.length d) []
  | None => (h, Raise AttributeError)
  end.

(** [self.resources] is the object stored under ["Resources"] of
    [self.template_dict] when that key is present, and a new empty mapping
    otherwise. *)
Definition __init__ (h : Heap) (template : PyVal)
    (parameter_overrides : PyVal) (ignore_warnings : bool)
  : Heap * Result Instance :=
  let self := new_instance in
  match get_template h template parameter_overrides with
  | (h, Raise e) => (h, Raise e)
  | (h, Ok t) =>
      let self := set_template_dict t self in
      let self := set_ignore_code_extraction_warnings ignore_warnings self in
      match deref h t with
      | None => (h, Raise AttributeError)
      | Some d =>
          let (h, rs) :=
            match dict_get d "Resources" with
            | Some rs => (h, rs)
            | None => ((h ++ [[]])%list, PyRef (List.length h))
            end in
          let self := set_resources rs self in
          match py_len h rs with
          | Raise e => (h, Raise e)
          | Ok _ =>
              match _extract_serverless_applications h rs ignore_warnings with
              | (h, Raise e) => (h, Raise e)
              | (h, Ok index) =>
                  let self := set_functions index self in
                  let self := set__colored tt self in
                  (h, Ok self)
              end
          end
      end
  end.

End Provider.

(** [for _, application in self.applications.items(): yield application],
    run to exhaustion. *)
Definition get_all (self : Instance) : Result (list ServerlessApplication.t) :=
  match applications self with
  | Some d => Ok (dict_values d)
  | None => Raise AttributeError
  end.

(** [f.applicationname == name] *)
Definition applicationname_is (f : ServerlessApplication.t) (name : string)
  : bool :=
  match ServerlessApplication.applicationname f with
  | Some s => String.eqb s name
  | None => false
  end.

(** The body of the [for] loop of [get] over the records [get_all] yields. *)
Fixpoint get_scan (name : string) (fs : list ServerlessApplication.t)
  : option ServerlessApplication.t :=
  match fs with
  | [] => None
  | f :: rest =>
      if String.eqb (ServerlessApplication.name f) name then Some f
      else if applicationname_is f name then Some f
      else get_scan name rest
  end.

(** [name] is [None] or a [str]. *)
Definition get (self : Instance) (name : option string)
  : Result (option ServerlessApplication.t) :=
  match name with
  | None => Raise (ValueError "Application name is required")
  | Some n =>
      if String.eqb n "" then Raise (ValueError "Application name is required")
      else
        fs <- get_all self ;;
        Ok (get_scan n fs)
  end.

(** ** Vocabulary of the properties *)

(** The resource's type tag is the one the provider recognises. *)
Definition recognized {base : SamBaseProvider} (h : Heap) (resource : PyVal)
  : bool :=
  match deref h resource with
  | Some fields =>
      py_eq_str (property fields "Type" PyNone) SERVERLESS_APPLICATION
  | None => false
  end.

(** The resource has nothing for the extraction to merge: its metadata is
    empty, or it has no [Properties] entry to receive it. *)
Definition nothing_to_merge (h : Heap) (resource : PyVal) : Prop :=
  forall fields,
    deref h resource = Some fields ->
    truthy h (property fields "Metadata" PyNone) = false \/
    dict_get fields "Properties" = None.

(** The mapping [d'] is the mapping [d], or [d] after an assignment
    [d["Metadata"] = md]. *)
Definition metadata_set_or_same (d d' : Dict PyVal) : Prop :=
  d' = d \/ exists md, d' = dict_set d "Metadata" md.

(** The heap [h'] has the objects of [h], each one as it was or with its
    ["Metadata"] key set. *)
Definition only_metadata_written (h h' : Heap) : Prop :=
  Forall2 metadata_set_or_same h h'.

(** A resource that is a mapping, carries another type tag than the
    recognised one, and whose [Properties] entry, when it has one, is a
    mapping other than the resource mapping [resources] itself. *)
Definition other_tag_resource {base : SamBaseProvider} (h : Heap)
    (resources : PyVal) (resource : PyVal) : Prop :=
  exists fields,
    deref h resource = Some fields /\
    py_eq_str (property fields "Type" PyNone) SERVERLESS_APPLICATION = false /\
    (dict_get fields "Properties" = None \/
     exists a dp,
       dict_get fields "Properties" = Some (PyRef a) /\
       heap_get h a = Some dp /\
       resources <> PyRef a).

(** The number of items of a resource mapping whose type tag is
    recognised. *)
Definition recognized_count {base : SamBaseProvider} (h : Heap)
    (items : Dict PyVal) : nat :=
  List.length (filter (fun item => recognized h (snd item)) items).

(** ** Resolved templates *)

(** A base class whose pre-processing has nothing left to resolve and
    hands the template back. *)
Definition resolved_base : SamBaseProvider :=
  {| SERVERLESS_APPLICATION := "AWS::Serverless::Application";
     get_template := fun h template _ => (h, Ok template) |}.

(** In each heap below the template is the object at address 0 and its
    resource mapping the object at address 1. *)
Definition TEMPLATE : PyVal := PyRef 0.
Definition RESOURCES : PyVal := PyRef 1.

(** [{"Resources": {"SamFunc": {"Type": "AWS::Serverless::Function",
    "Properties": {...}}}}]: a template without any application. *)
Definition FUNCTION_HEAP : Heap :=
  [ [("Resources", PyRef 1)];
    [("SamFunc", PyRef 2)];
    [("Type", PyStr "AWS::Serverless::Function"); ("Properties", PyRef 3)];
    [("CodeUri", PyStr "s3://bucket/key");
     ("Runtime", PyStr "nodejs4.3");
     ("Handler", PyStr "index.handler")] ].

(** [{"Resources": {"LocalApp": {"Type": "AWS::Serverless::Application",
    "Properties": {"Location": "./child/template.yaml"}}}}] *)
Definition APPLICATION_HEAP : Heap :=
  [ [("Resources", PyRef 1)];
    [("LocalApp", PyRef 2)];
    [("Type", PyStr "AWS::Serverless::Application"); ("Properties", PyRef 3)];
    [("Location", PyStr "./child/template.yaml")] ].

(** The same application, with metadata:
    ["Metadata": {"BuildMethod": "python3.8"}]. *)
Definition APPLICATION_METADATA_HEAP : Heap :=
  [ [("Resources", PyRef 1)];
    [("LocalApp", PyRef 2)];
    [("Type", PyStr "AWS::Serverless::Application");
     ("Properties", PyRef 3);
     ("Metadata", PyRef 4)];
    [("Location", PyStr "./child/template.yaml")];
    [("BuildMethod", PyStr "python3.8")] ].

(** The expanded form of the same concept:
    [{"Resources": {"Stack": {"Type": "AWS::CloudFormation::Stack",
    "Properties": {"Location": "./child/template.yaml",
    "Parameters": {"Stage": "dev"}},
    "Metadata": {"BuildMethod": "python3.8"}}}}] *)
Definition STACK_HEAP : Heap :=
  [ [("Resources", PyRef 1)];
    [("Stack", PyRef 2)];
    [("Type", PyStr "AWS::CloudFormation::Stack");
     ("Properties", PyRef 3);
     ("Metadata", PyRef 4)];
    [("Location", PyStr "./child/template.yaml"); ("Parameters", PyRef 5)];
    [("BuildMethod", PyStr "python3.8")];
    [("Stage", PyStr "dev")] ].

(** [STACK_HEAP] after the extraction: the properties of ["Stack"] have a
    ["Metadata"] entry. *)
Definition STACK_HEAP_after : Heap :=
  [ [("Resources", PyRef 1)];
    [("Stack", PyRef 2)];
    [("Type", PyStr "AWS::CloudFormation::Stack");
     ("Properties", PyRef 3);
     ("Metadata", PyRef 4)];
    [("Location", PyStr "./child/template.yaml");
     ("Parameters", PyRef 5);
     ("Metadata", PyRef 4)];
    [("BuildMethod", PyStr "python3.8")];
    [("Stage", PyStr "dev")] ].

(** Two resources that share one [Properties] object (address 4); only
    ["First"] has metadata. *)
Definition SHARED_HEAP : Heap :=
  [ [("Resources", PyRef 1)];
    [("First", PyRef 2); ("Second", PyRef 3)];
    [("Type", PyStr "AWS::CloudFormation::Stack");
     ("Properties", PyRef 4);
     ("Metadata", PyRef 5)];
    [("Type", PyStr "AWS::Serverless::Function"); ("Properties", PyRef 4)];
    [("Location", PyStr "./child/template.yaml")];
    [("BuildMethod", PyStr "python3.8")] ].

(** A template whose [Resources] entry is null. *)
Definition NULL_HEAP : Heap := [ [("Resources", PyNone)] ].

(** The provider object that [__init__] builds from [FUNCTION_HEAP]. *)
Definition FUNCTION_provider : Instance :=
  set__colored tt
    (set_functions []
       (set_resources RESOURCES
          (set_ignore_code_extraction_warnings false
             (set_template_dict TEMPLATE new_instance)))).

(** * Properties *)

(** ** Dictionaries *)

Section DictFacts.

Context {V : Type}.
Implicit Types (d : Dict V) (k : string) (v : V).

Lemma dict_get_set_same d k v : dict_get (dict_set d k v) k = Some v.
Proof.
  induction d as [|[k' v'] rest IH]; simpl.
  - now rewrite String.eqb_refl.
  - destruct (String.eqb k' k) eqn:E; simpl; rewrite E; auto.
Qed.

Lemma dict_get_set_other d k k' v :
  k <> k' -> dict_get (dict_set d k v) k' = dict_get d k'.
Proof.
  intros Hne.
  induction d as [|[k0 v0] rest IH]; simpl.
  - destruct (String.eqb_spec k k'); [contradiction | reflexivity].
  - destruct (String.eqb_spec k0 k) as [->|Hk]; simpl.
    + destruct (String.eqb_spec k k'); [contradiction | reflexivity].
    + destruct (String.eqb k0 k'); auto.
Qed.

Lemma dict_set_set d k v v' :
  dict_set (dict_set d k v) k v' = dict_set d k v'.
Proof.
  induction d as [|[k0 v0] rest IH]; simpl.
  - now rewrite String.eqb_refl.
  - destruct (String.eqb k0 k) eqn:E; simpl; rewrite E; [reflexivity|].
    now rewrite IH.
Qed.

End DictFacts.

(** ** The heap *)

Lemma heap_get_set_same (h : Heap) (a : Addr) (d0 d : Dict PyVal) :
  heap_get h a = Some d0 -> heap_get (heap_set h a d) a = Some d.
Proof.
  unfold heap_get. revert a.
  induction h as [|x rest IH]; intros [|a]; simpl; try discriminate; auto.
Qed.

Lemma heap_get_set_other (h : Heap) (a b : Addr) (d : Dict PyVal) :
  a <> b -> heap_get (heap_set h a d) b = heap_get h b.
Proof.
  unfold heap_get. revert a b.
  induction h as [|x rest IH]; intros [|a] [|b] Hne; simpl; auto;
    try contradiction.
Qed.

Lemma metadata_set_or_same_trans (d1 d2 d3 : Dict PyVal) :
  metadata_set_or_same d1 d2 -> metadata_set_or_same d2 d3 ->
  metadata_set_or_same d1 d3.
Proof.
  intros [->|[md ->]] [->|[md' ->]].
  - now left.
  - right. eauto.
  - right. eauto.
  - right. exists md'. apply dict_set_set.
Qed.

Lemma only_metadata_written_refl (h : Heap) : only_metadata_written h h.
Proof.
  induction h; constructor; auto. now left.
Qed.

Lemma only_metadata_written_trans (h1 h2 h3 : Heap) :
  only_metadata_written h1 h2 -> only_metadata_written h2 h3 ->
  only_metadata_written h1 h3.
Proof.
  unfold only_metadata_written. intros H12. revert h3.
  induction H12 as [|d1 d2 r1 r2 Hd _ IH]; intros h3 H23;
    inversion H23; subst; constructor.
  - eapply metadata_set_or_same_trans; eauto.
  - now apply IH.
Qed.

Lemma only_metadata_written_set (h : Heap) (a : Addr) (d : Dict PyVal)
    (md : PyVal) :
  heap_get h a = Some d ->
  only_metadata_written h (heap_set h a (dict_set d "Metadata" md)).
Proof.
  unfold heap_get, only_metadata_written. revert a.
  induction h as [|x rest IH]; intros [|a]; simpl; try discriminate.
  - intros [= ->]. constructor; [right; eauto|].
    apply only_metadata_written_refl.
  - intros H. constructor; [now left | now apply IH].
Qed.

Lemma only_metadata_written_get (h h' : Heap) (a : Addr) (d : Dict PyVal) :
  only_metadata_written h h' ->
  heap_get h a = Some d ->
  exists d', heap_get h' a = Some d' /\ metadata_set_or_same d d'.
Proof.
  unfold heap_get, only_metadata_written. intros H. revert a.
  induction H as [|x y r r' Hxy _ IH]; intros [|a]; simpl; try discriminate.
  - intros [= ->]. eauto.
  - apply IH.
Qed.

Lemma metadata_set_or_same_get (d d' : Dict PyVal) (k : string) :
  metadata_set_or_same d d' -> k <> "Metadata" ->
  dict_get d' k = dict_get d k.
Proof.
  intros [->|[md ->]] Hk; [reflexivity|].
  apply dict_get_set_other. congruence.
Qed.

(** ** The scan of [get] *)

Lemma get_nonempty (self : Instance) (n : string) :
  n <> "" -> get self (Some n) = (fs <- get_all self ;; Ok (get_scan n fs)).
Proof.
  intros Hn. unfold get.
  destruct (String.eqb_spec n ""); [contradiction | reflexivity].
Qed.

(** ** One turn of the extraction loop *)

Section ItemFacts.

Context {base : SamBaseProvider}.

(** The conversion never returns: it raises [AttributeError] on a property
    bag that is no mapping and [NameError] otherwise. *)
Lemma convert_raises (name : string) (o : Object) (flag : bool) :
  _convert_sam_serverless_application_resource name o flag
  = Raise (match o with
           | Some _ => NameError "ServerlessApplication"
           | None => AttributeError
           end).
Proof. destruct o; reflexivity. Qed.

Lemma extract_item_flag (h : Heap) (name : string) (resource : PyVal)
    (result : Index) :
  extract_item true h name resource result
  = extract_item false h name resource result.
Proof. reflexivity. Qed.

Lemma py_setitem_frame (h : Heap) (v : PyVal) (x : PyVal) :
  only_metadata_written h (fst (py_setitem h v "Metadata" x)).
Proof.
  unfold py_setitem.
  destruct v; try apply only_metadata_written_refl.
  destruct (heap_get h a) as [d|] eqn:Ha; cbn [fst].
  - now apply only_metadata_written_set.
  - apply only_metadata_written_refl.
Qed.

(** A turn writes nothing but a ["Metadata"] key. *)
Lemma extract_item_frame (flag : bool) (h : Heap) (name : string)
    (resource : PyVal) (result : Index) :
  only_metadata_written h (fst (extract_item flag h name resource result)).
Proof.
  unfold extract_item.
  destruct (deref h resource) as [fields|];
    [|apply only_metadata_written_refl].
  destruct (dict_get fields "Properties") as [rp|].
  - destruct (truthy h (property fields "Metadata" PyNone)).
    + pose proof (py_setitem_frame h rp (property fields "Metadata" PyNone))
        as Hw.
      destruct (py_setitem h rp "Metadata" (property fields "Metadata" PyNone))
        as [h' [u|e]]; cbn [fst] in *; [|assumption].
      destruct (py_eq_str _ _); assumption.
    + destruct (py_eq_str _ _); apply only_metadata_written_refl.
  - destruct (py_eq_str _ _); apply only_metadata_written_refl.
Qed.

(** A turn that completes has met a resource of another type and leaves
    [result] as it was. *)
Lemma extract_item_Ok (flag : bool) (h : Heap) (name : string)
    (resource : PyVal) (result : Index) (h' : Heap) (result' : Index) :
  extract_item flag h name resource result = (h', Ok result') ->
  result' = result /\ recognized h resource = false.
Proof.
  unfold extract_item, recognized.
  destruct (deref h resource) as [fields|]; [|discriminate].
  destruct (dict_get fields "Properties") as [rp|].
  - destruct (if truthy h (property fields "Metadata" PyNone)
              then py_setitem h rp "Metadata" (property fields "Metadata" PyNone)
              else (h, Ok tt)) as [h1 [u|e]]; [|discriminate].
    destruct (py_eq_str _ _).
    + rewrite convert_raises. discriminate.
    + intros [= _ <-]. auto.
  - destruct (py_eq_str _ _).
    + rewrite convert_raises. discriminate.
    + intros [= _ <-]. auto.
Qed.

(** A turn on a resource with nothing to merge leaves the heap alone. *)
Lemma extract_item_no_write (flag : bool) (h : Heap) (name : string)
    (resource : PyVal) (result : Index) :
  nothing_to_merge h resource ->
  fst (extract_item flag h name resource result) = h.
Proof.
  unfold nothing_to_merge, extract_item. intros Hn.
  destruct (deref h resource) as [fields|]; [|reflexivity].
  specialize (Hn fields eq_refl).
  destruct (dict_get fields "Properties") as [rp|].
  - destruct Hn as [Hn|Hn]; [|discriminate]. rewrite Hn.
    destruct (py_eq_str _ _); reflexivity.
  - destruct (py_eq_str _ _); reflexivity.
Qed.

End ItemFacts.

(** ** The extraction loop *)

Section LoopFacts.

Context {base : SamBaseProvider}.

Lemma extract_loop_flag (h : Heap) (rs : PyVal) (size remaining : nat)
    (result : Index) :
  extract_loop true h rs size remaining result
  = extract_loop false h rs size remaining result.
Proof.
  revert h result.
  induction remaining as [|remaining IH]; intros h result;
    cbn [extract_loop]; [reflexivity|].
  destruct (deref h rs) as [d|]; [|reflexivity].
  destruct (negb _); [reflexivity|].
  destruct (nth_error d (size - S remaining)) as [[name resource]|];
    [|reflexivity].
  rewrite extract_item_flag.
  destruct (extract_item false h name resource result) as [h' [result'|e]];
    [apply IH | reflexivity].
Qed.

Lemma extract_loop_frame (flag : bool) (h : Heap) (rs : PyVal)
    (size remaining : nat) (result : Index) :
  only_metadata_written h
    (fst (extract_loop flag h rs size remaining result)).
Proof.
  revert h result.
  induction remaining as [|remaining IH]; intros h result;
    cbn [extract_loop].
  - destruct (deref h rs) as [d|]; [destruct (negb _)|];
      apply only_metadata_written_refl.
  - destruct (deref h rs) as [d|]; [|apply only_metadata_written_refl].
    destruct (negb _); [apply only_metadata_written_refl|].
    destruct (nth_error d (size - S remaining)) as [[name resource]|];
      [|apply only_metadata_written_refl].
    pose proof (extract_item_frame flag h name resource result) as Hitem.
    destruct (extract_item flag h name resource result) as [h' [result'|e]];
      cbn [fst] in *; [|assumption].
    eapply only_metadata_written_trans; [exact Hitem | apply IH].
Qed.

Lemma extract_loop_Ok (flag : bool) (h : Heap) (rs : PyVal)
    (size remaining : nat) (result : Index) (h' : Heap) (index : Index) :
  extract_loop flag h rs size remaining result = (h', Ok index) ->
  index = result.
Proof.
  revert h result.
  induction remaining as [|remaining IH]; intros h result;
    cbn [extract_loop].
  - destruct (deref h rs) as [d|]; [destruct (negb _)|]; try discriminate.
    now intros [= _ <-].
  - destruct (deref h rs) as [d|]; [|discriminate].
    destruct (negb _); [discriminate|].
    destruct (nth_error d (size - S remaining)) as [[name resource]|];
      [|now intros [= _ <-]].
    destruct (extract_item flag h name resource result)
      as [h1 [result1|e]] eqn:Hitem; [|discriminate].
    destruct (extract_item_Ok _ _ _ _ _ _ _ Hitem) as [-> _].
    apply IH.
Qed.

Lemma extract_loop_no_write (flag : bool) (h : Heap) (rs : PyVal)
    (d : Dict PyVal) (size remaining : nat) (result : Index) :
  deref h rs = Some d ->
  (forall n resource, In (n, resource) d -> nothing_to_merge h resource) ->
  fst (extract_loop flag h rs size remaining result) = h.
Proof.
  intros Hd Hnothing. revert result.
  induction remaining as [|remaining IH]; intros result;
    cbn [extract_loop]; rewrite Hd.
  - destruct (negb _); reflexivity.
  - destruct (negb _); [reflexivity|].
    destruct (nth_error d (size - S remaining)) as [[name resource]|] eqn:Hnth;
      [|reflexivity].
    pose proof (extract_item_no_write flag h name resource result
                  (Hnothing _ _ (nth_error_In _ _ Hnth))) as Hitem.
    destruct (extract_item flag h name resource result) as [h' [result'|e]];
      cbn [fst] in Hitem; subst h'; [apply IH | reflexivity].
Qed.

End LoopFacts.

(** ** Resources of other types *)

Section OtherTagFacts.

Context {base : SamBaseProvider}.

Lemma other_tag_resource_preserved (h h' : Heap) (rs resource : PyVal) :
  only_metadata_written h h' ->
  other_tag_resource h rs resource ->
  other_tag_resource h' rs resource.
Proof.
  intros Hw (fields & Hd & Htype & Hprops).
  destruct resource as [| | | | |b]; try discriminate. cbn [deref] in Hd.
  destruct (only_metadata_written_get _ _ _ _ Hw Hd) as (fields' & Hd' & Hm).
  exists fields'. split; [exact Hd'|]. split.
  - unfold property in *.
    now rewrite (metadata_set_or_same_get _ _ "Type" Hm) by discriminate.
  - rewrite (metadata_set_or_same_get _ _ "Properties" Hm) by discriminate.
    destruct Hprops as [Hnone|(a & dp & Hp & Ha & Hne)]; [now left|].
    right. destruct (only_metadata_written_get _ _ _ _ Hw Ha) as (dp' & Ha' & _).
    exists a, dp'. auto.
Qed.

(** A turn on such a resource completes, leaves [result] as it was and
    writes, if at all, into an object other than the resource mapping. *)
Lemma extract_item_other_tag (flag : bool) (h : Heap) (rs : PyVal)
    (name : string) (resource : PyVal) (result : Index) :
  other_tag_resource h rs resource ->
  exists h',
    extract_item flag h name resource result = (h', Ok result) /\
    only_metadata_written h h' /\
    deref h' rs = deref h rs.
Proof.
  intros (fields & Hd & Htype & Hprops).
  pose proof (extract_item_frame flag h name resource result) as Hframe.
  unfold extract_item in *. rewrite Hd in *. rewrite Htype in *.
  destruct Hprops as [Hnone|(a & dp & Hp & Ha & Hne)].
  - rewrite Hnone in *. exists h. auto.
  - rewrite Hp in *.
    destruct (truthy h (property fields "Metadata" PyNone)).
    + cbn [py_setitem] in *. rewrite Ha in *. cbn [fst] in Hframe.
      eexists. split; [reflexivity|]. split; [assumption|].
      destruct rs as [| | | | |ra]; try reflexivity. cbn [deref].
      apply heap_get_set_other. congruence.
    + exists h. auto.
Qed.

Lemma extract_loop_other_tags (flag : bool) (rs : PyVal) (d : Dict PyVal)
    (remaining : nat) (result : Index) (h : Heap) :
  deref h rs = Some d ->
  (forall n resource, In (n, resource) d -> other_tag_resource h rs resource) ->
  exists h',
    extract_loop flag h rs (List.length d) remaining result = (h', Ok result) /\
    only_metadata_written h h'.
Proof.
  revert h.
  induction remaining as [|remaining IH]; intros h Hd Hall;
    cbn [extract_loop]; rewrite Hd, Nat.eqb_refl; cbn [negb].
  - exists h. split; [reflexivity | apply only_metadata_written_refl].
  - destruct (nth_error d (List.length d - S remaining))
      as [[name resource]|] eqn:Hnth.
    + destruct (extract_item_other_tag flag h rs name resource result
                  (Hall _ _ (nth_error_In _ _ Hnth)))
        as (h1 & -> & Hw1 & Hrs).
      destruct (IH h1) as (h' & Hloop & Hw').
      * now rewrite Hrs.
      * intros n r Hin. eapply other_tag_resource_preserved; eauto.
      * exists h'. split; [assumption|].
        eapply only_metadata_written_trans; eauto.
    + exists h. split; [reflexivity | apply only_metadata_written_refl].
Qed.

End OtherTagFacts.

(** ** Construction *)

Section ConstructionFacts.

Context {base : SamBaseProvider}.

(** What a construction that completes has gone through. *)
Lemma init_Ok_inv (h : Heap) (t po : PyVal) (flag : bool) (h' : Heap)
    (self : Instance) :
  __init__ h t po flag = (h', Ok self) ->
  exists h1 tv h2 rs index,
    get_template h t po = (h1, Ok tv) /\
    _extract_serverless_applications h2 rs flag = (h', Ok index) /\
    self = set__colored tt
             (set_functions index
                (set_resources rs
                   (set_ignore_code_extraction_warnings flag
                      (set_template_dict tv new_instance)))).
Proof.
  unfold __init__.
  destruct (get_template h t po) as [h1 [tv|e]]; [|discriminate].
  destruct (deref h1 tv) as [d|]; [|discriminate].
  destruct (match dict_get d "Resources" with
            | Some rs => (h1, rs)
            | None => ((h1 ++ [[]])%list, PyRef (List.length h1))
            end) as [h2 rs].
  destruct (py_len h2 rs); [|discriminate].
  destruct (_extract_serverless_applications h2 rs flag)
    as [h3 [index|e]] eqn:Hx; [|discriminate].
  intros [= <- <-]. exists h1, tv, h2, rs, index. auto.
Qed.

(** [__init__] stores the index under [functions]; it never assigns
    [applications]. *)
Lemma init_applications_unset (h : Heap) (t po : PyVal) (flag : bool)
    (h' : Heap) (self : Instance) :
  __init__ h t po flag = (h', Ok self) -> applications self = None.
Proof.
  intros H.
  destruct (init_Ok_inv _ _ _ _ _ _ H) as (h1 & tv & h2 & rs & index & _ & _ & ->).
  reflexivity.
Qed.

Lemma init_get_all (h : Heap) (t po : PyVal) (flag : bool)
    (h' : Heap) (self : Instance) :
  __init__ h t po flag = (h', Ok self) -> get_all self = Raise AttributeError.
Proof.
  intros H. unfold get_all.
  now rewrite (init_applications_unset _ _ _ _ _ _ H).
Qed.

Lemma init_get (h : Heap) (t po : PyVal) (flag : bool)
    (h' : Heap) (self : Instance) (n : string) :
  __init__ h t po flag = (h', Ok self) -> n <> "" ->
  get self (Some n) = Raise AttributeError.
Proof.
  intros H Hn. rewrite (get_nonempty _ _ Hn).
  now rewrite (init_get_all _ _ _ _ _ _ H).
Qed.

Lemma extract_Ok (h : Heap) (rs : PyVal) (flag : bool) (h' : Heap)
    (index : Index) :
  _extract_serverless_applications h rs flag = (h', Ok index) -> index = [].
Proof.
  unfold _extract_serverless_applications.
  destruct (deref h rs) as [d|]; [|discriminate].
  apply extract_loop_Ok.
Qed.

End ConstructionFacts.

(** * The claims *)

(** ** Lookup *)

(** C6: [get] raises [ValueError] exactly when the name is absent ([None])
    or empty: [get("")] and [get(None)] raise it, and no non-empty name
    does, whatever the state of the provider object. *)
Theorem get_raises_ValueError_iff_no_name (self : Instance)
    (name : option string) :
  (exists msg, get self name = Raise (ValueError msg)) <->
  (name = None \/ name = Some "").
Proof.
  unfold get. split.
  - intros [msg H].
    destruct name as [n|]; [|now left].
    destruct (String.eqb_spec n "") as [->|Hn]; [now right|].
    exfalso. unfold get_all in H.
    destruct (applications self); discriminate.
  - intros [->| ->]; cbn; eauto.
Qed.

(** ** The diagnostics flag *)

(** C10: [ignore_code_extraction_warnings] has no effect on the extracted
    index: extraction with the flag set and with the flag clear gives the
    same index and leaves the heap in the same state, and so does the
    construction of the provider, whose [functions] attribute is the same
    for both values. *)
Theorem ignore_code_extraction_warnings_no_effect
    {base : SamBaseProvider}
    (h : Heap) (template parameter_overrides resources : PyVal) :
  _extract_serverless_applications h resources true
  = _extract_serverless_applications h resources false /\
  fst (__init__ h template parameter_overrides true)
  = fst (__init__ h template parameter_overrides false) /\
  (self <- snd (__init__ h template parameter_overrides true) ;;
   Ok (functions self))
  = (self <- snd (__init__ h template parameter_overrides false) ;;
     Ok (functions self)).
Proof.
  assert (Hx : forall h0 rs,
             _extract_serverless_applications h0 rs true
             = _extract_serverless_applications h0 rs false).
  { intros h0 rs. unfold _extract_serverless_applications.
    destruct (deref h0 rs) as [d|]; [|reflexivity].
    apply extract_loop_flag. }
  split; [apply Hx|].
  unfold __init__.
  destruct (get_template h template parameter_overrides) as [h1 [t|e]];
    [|split; reflexivity].
  destruct (deref h1 t) as [d|]; [|split; reflexivity].
  destruct (match dict_get d "Resources" with
            | Some rs => (h1, rs)
            | None => ((h1 ++ [[]])%list, PyRef (List.length h1))
            end) as [h2 rs].
  destruct (py_len h2 rs); [|split; reflexivity].
  rewrite Hx.
  destruct (_extract_serverless_applications h2 rs false) as [h3 [index|e]];
    split; reflexivity.
Qed.

(** ** Writes into the template *)



(** ** Type tags *)

(** C8 (amended): the provider routes to the conversion only the resources
    whose type tag is [SERVERLESS_APPLICATION].  A resource with any other
    tag, the expanded one included, yields no record and no error whatever
    its properties: over a resource mapping whose resources are all
    mappings of other tags (their [Properties], when present, mappings
    too, and not the resource mapping itself) extraction completes with
    the empty index, having written nothing but ["Metadata"] keys. *)
Theorem other_tags_yield_no_record
    {base : SamBaseProvider} (flag : bool) (h : Heap) (rs : PyVal)
    (d : Dict PyVal) :
  deref h rs = Some d ->
  (forall n resource, In (n, resource) d -> other_tag_resource h rs resource) ->
  exists h',
    _extract_serverless_applications h rs flag = (h', Ok []) /\
    only_metadata_written h h'.
Proof.
  intros Hd Hall. unfold _extract_serverless_applications. rewrite Hd.
  now apply extract_loop_other_tags.
Qed.

Lemma other_tags_yield_no_record_witness :
  exists h',
    _extract_serverless_applications (base := resolved_base)
      STACK_HEAP RESOURCES false = (h', Ok []) /\
    only_metadata_written STACK_HEAP h'.
Proof.
  apply (other_tags_yield_no_record (base := resolved_base) false
           STACK_HEAP RESOURCES [("Stack", PyRef 2)]).
  - reflexivity.
  - intros n resource [[= <- <-]|[]].
    eexists. split; [reflexivity|]. split; [reflexivity|].
    right. exists 3, [("Location", PyStr "./child/template.yaml");
                      ("Parameters", PyRef 5)].
    split; [reflexivity|]. split; [reflexivity | discriminate].
Defined.

(** C8, as stated, fails: the resource ["Stack"] of [STACK_HEAP] expresses
    the concept under the expanded tag [AWS::CloudFormation::Stack], with
    the properties an application would have; it is not routed to the
    conversion and gets no record: the index is empty. *)
Lemma expanded_form_not_converted_counterexample :
  py_get STACK_HEAP (PyRef 2) "Type" PyNone
  = Ok (PyStr "AWS::CloudFormation::Stack") /\
  py_get STACK_HEAP (PyRef 3) "Location" PyNone
  = Ok (PyStr "./child/template.yaml") /\
  recognized (base := resolved_base) STACK_HEAP (PyRef 2) = false /\
  snd (_extract_serverless_applications (base := resolved_base)
         STACK_HEAP RESOURCES false) = Ok [] /\
  (self <- snd (__init__ (base := resolved_base)
                  STACK_HEAP TEMPLATE PyNone false) ;;
   Ok (functions self)) = Ok (Some []).
Proof.
  repeat split; reflexivity.
Qed.

(** ** Records and their location *)

(** C1: the template of [APPLICATION_HEAP] has one resource of the
    recognised type, whose [Location] is the local path
    ["./child/template.yaml"].  Its conversion reads the location and then
    raises [NameError] where the record should be built, so construction
    raises and no record with a location exists; the heap is as it was. *)
Theorem application_resource_raises_NameError :
  recognized (base := resolved_base) APPLICATION_HEAP (PyRef 2) = true /\
  py_get APPLICATION_HEAP (PyRef 3) "Location" PyNone
  = Ok (PyStr "./child/template.yaml") /\
  _convert_sam_serverless_application_resource
    "LocalApp" (deref APPLICATION_HEAP (PyRef 3)) false
  = Raise (NameError "ServerlessApplication") /\
  _extract_serverless_applications (base := resolved_base)
    APPLICATION_HEAP RESOURCES false
  = (APPLICATION_HEAP, Raise (NameError "ServerlessApplication")) /\
  __init__ (base := resolved_base) APPLICATION_HEAP TEMPLATE PyNone false
  = (APPLICATION_HEAP, Raise (NameError "ServerlessApplication")).
Proof.
  repeat split; reflexivity.
Qed.

(** ** Enumeration and lookup after construction *)

(** C2: on the provider built from the template of [FUNCTION_HEAP] the
    constructor has stored the index, which is empty, under the attribute
    [functions]; [get_all] reads the attribute [applications], which is not
    set, and raises instead of yielding the empty sequence. *)
Theorem get_all_does_not_yield_the_index :
  __init__ (base := resolved_base) FUNCTION_HEAP TEMPLATE PyNone false
  = (FUNCTION_HEAP, Ok FUNCTION_provider) /\
  functions FUNCTION_provider = Some [] /\
  applications FUNCTION_provider = None /\
  get_all FUNCTION_provider = Raise AttributeError.
Proof.
  repeat split; reflexivity.
Qed.

(** C3: on the provider built from the template of [FUNCTION_HEAP], whose
    index holds no record, [get] of a name raises [AttributeError] instead
    of returning [None]. *)
Theorem get_of_absent_name_raises :
  __init__ (base := resolved_base) FUNCTION_HEAP TEMPLATE PyNone false
  = (FUNCTION_HEAP, Ok FUNCTION_provider) /\
  functions FUNCTION_provider = Some [] /\
  get FUNCTION_provider (Some "does-not-exist") = Raise AttributeError.
Proof.
  repeat split; reflexivity.
Qed.

(** C4: on the provider built from the template of [FUNCTION_HEAP], [get]
    looks nothing up, neither by display name nor by identity: for the
    logical id ["SamFunc"] as for the name ["Layer1"] it raises
    [AttributeError] before any record is compared. *)
Theorem get_looks_nothing_up :
  __init__ (base := resolved_base) FUNCTION_HEAP TEMPLATE PyNone false
  = (FUNCTION_HEAP, Ok FUNCTION_provider) /\
  get_all FUNCTION_provider = Raise AttributeError /\
  get FUNCTION_provider (Some "SamFunc") = Raise AttributeError /\
  get FUNCTION_provider (Some "Layer1") = Raise AttributeError.
Proof.
  repeat split; reflexivity.
Qed.

(** C7: the template of [FUNCTION_HEAP] has one resource, of a type the
    provider does not recognise; construction skips it without error and
    the index has no record, as many as there are recognised resources;
    yet [get_all] yields no sequence to count: it raises. *)
Theorem get_all_yields_no_count :
  __init__ (base := resolved_base) FUNCTION_HEAP TEMPLATE PyNone false
  = (FUNCTION_HEAP, Ok FUNCTION_provider) /\
  recognized_count (base := resolved_base) FUNCTION_HEAP [("SamFunc", PyRef 2)]
  = 0 /\
  option_map (@List.length _) (functions FUNCTION_provider) = Some 0 /\
  (fs <- get_all FUNCTION_provider ;; Ok (List.length fs))
  = Raise AttributeError.
Proof.
  repeat split; reflexivity.
Qed.

(** C9: on the provider built from the template of [FUNCTION_HEAP], two
    calls of [get_all] in a row yield no pair of sequences: the first one
    already raises, and so does the second when run on its own. *)
Theorem get_all_twice_raises :
  __init__ (base := resolved_base) FUNCTION_HEAP TEMPLATE PyNone false
  = (FUNCTION_HEAP, Ok FUNCTION_provider) /\
  (first <- get_all FUNCTION_provider ;;
   second <- get_all FUNCTION_provider ;;
   Ok (first, second))
  = Raise AttributeError /\
  get_all FUNCTION_provider = Raise AttributeError.
Proof.
  repeat split; reflexivity.
Qed.

(** * Further properties of the provider *)

Section Further.

Context {base : SamBaseProvider}.

(** X2: construction completes only with an empty index.  Whenever
    [__init__] returns, [self.functions] is the empty mapping: a resource
    of the recognised type always ends the construction with an
    exception. *)
Theorem constructed_index_is_empty
    (h : Heap) (t po : PyVal) (flag : bool) (h' : Heap) (self : Instance) :
  __init__ h t po flag = (h', Ok self) ->
  functions self = Some [].
Proof.
  intros H.
  destruct (init_Ok_inv _ _ _ _ _ _ H)
    as (h1 & tv & h2 & rs & index & _ & Hx & ->).
  rewrite (extract_Ok _ _ _ _ _ Hx). reflexivity.
Qed.

(** X5: extraction leaves every object of the heap exactly as it was when
    every resource of the mapping has empty (or no) metadata or has no
    [Properties] entry, whether extraction completes or raises. *)
Theorem extraction_without_metadata_writes_nothing
    (flag : bool) (h : Heap) (rs : PyVal) (items : Dict PyVal) :
  deref h rs = Some items ->
  (forall n resource, In (n, resource) items -> nothing_to_merge h resource) ->
  fst (_extract_serverless_applications h rs flag) = h.
Proof.
  intros Hd Hnothing. unfold _extract_serverless_applications. rewrite Hd.
  eapply extract_loop_no_write; eauto.
Qed.

(** X6: a failed construction is not undone.  When the first declared
    resource is of the recognised type, has a mapping as [Properties] and
    non-empty [Metadata], extraction stores the metadata under the key
    ["Metadata"] of that mapping and then raises [NameError]; the heap it
    leaves has the write. *)
Theorem recognized_resource_is_written_then_raises
    (flag : bool) (h : Heap) (rs : PyVal) (d : Dict PyVal) (name : string)
    (resource : PyVal) (fields : Dict PyVal) (a : Addr) (dp : Dict PyVal) :
  deref h rs = Some d ->
  nth_error d 0 = Some (name, resource) ->
  deref h resource = Some fields ->
  py_eq_str (property fields "Type" PyNone) SERVERLESS_APPLICATION = true ->
  dict_get fields "Properties" = Some (PyRef a) ->
  heap_get h a = Some dp ->
  truthy h (property fields "Metadata" PyNone) = true ->
  _extract_serverless_applications h rs flag
  = (heap_set h a (dict_set dp "Metadata" (property fields "Metadata" PyNone)),
     Raise (NameError "ServerlessApplication")).
Proof.
  intros Hd Hnth Hres Htype Hp Ha Hmd.
  unfold _extract_serverless_applications. rewrite Hd.
  destruct d as [|item rest]; [discriminate|].
  cbn [nth_error] in Hnth. injection Hnth as ->.
  cbn [List.length extract_loop]. rewrite Hd.
  cbn [List.length]. rewrite Nat.eqb_refl, Nat.sub_diag.
  cbn [negb nth_error].
  unfold extract_item. rewrite Hres, Hp, Hmd, Htype. cbn [py_setitem].
  rewrite Ha. rewrite convert_raises. cbn [deref].
  now rewrite (heap_get_set_same h a dp _ Ha).
Qed.

(** X11: whatever the template, the pre-processing and the flag, a
    provider that [__init__] has built holds its index under [functions]
    and has no [applications] attribute, so [get_all] raises
    [AttributeError] on it and so does [get] for every non-empty name. *)
Theorem constructed_provider_cannot_enumerate
    (h : Heap) (t po : PyVal) (flag : bool) (h' : Heap) (self : Instance) :
  __init__ h t po flag = (h', Ok self) ->
  (exists index, functions self = Some index) /\
  applications self = None /\
  get_all self = Raise AttributeError /\
  (forall n, n <> "" -> get self (Some n) = Raise AttributeError).
Proof.
  intros H. split; [|split; [|split]].
  - destruct (init_Ok_inv _ _ _ _ _ _ H)
      as (h1 & tv & h2 & rs & index & _ & _ & ->).
    exists index. reflexivity.
  - eapply init_applications_unset; eauto.
  - eapply init_get_all; eauto.
  - intros n Hn. eapply init_get; eauto.
Qed.

(** X13: construction fails on a pre-processed template whose
    ["Resources"] entry is not a mapping: with [TypeError] from [len] when
    it is [None], a boolean, a number or another object without a length,
    and with [AttributeError] from [.items()] when it is a string or a
    list.  The heap is as the pre-processing left it. *)
Theorem construction_rejects_malformed_resources
    (h : Heap) (t po : PyVal) (flag : bool) (h1 : Heap) (tv : PyVal)
    (d : Dict PyVal) (v : PyVal) :
  get_template h t po = (h1, Ok tv) ->
  deref h1 tv = Some d ->
  dict_get d "Resources" = Some v ->
  deref h1 v = None ->
  __init__ h t po flag
  = (h1, Raise (match v with
                | PyStr _ | PyList _ => AttributeError
                | _ => TypeError
                end)).
Proof.
  intros Ht Hd Hr Hv. unfold __init__. rewrite Ht, Hd, Hr.
  unfold _extract_serverless_applications. rewrite Hv.
  destruct v as [| | | | |a]; try reflexivity.
  cbn [deref] in Hv. cbn [py_len]. now rewrite Hv.
Qed.

End Further.

(** ** The further properties at work *)

Lemma constructed_index_is_empty_witness :
  functions FUNCTION_provider = Some [].
Proof.
  apply (constructed_index_is_empty (base := resolved_base)
           FUNCTION_HEAP TEMPLATE PyNone false FUNCTION_HEAP).
  reflexivity.
Defined.

Lemma extraction_without_metadata_writes_nothing_witness :
  fst (_extract_serverless_applications (base := resolved_base)
         FUNCTION_HEAP RESOURCES false)
  = FUNCTION_HEAP.
Proof.
  apply (extraction_without_metadata_writes_nothing (base := resolved_base)
           false FUNCTION_HEAP RESOURCES [("SamFunc", PyRef 2)]).
  - reflexivity.
  - intros n resource [[= <- <-]|[]] fields [= <-]. left. reflexivity.
Defined.

Lemma recognized_resource_is_written_then_raises_witness :
  _extract_serverless_applications (base := resolved_base)
    APPLICATION_METADATA_HEAP RESOURCES false
  = (heap_set APPLICATION_METADATA_HEAP 3
       (dict_set [("Location", PyStr "./child/template.yaml")]
          "Metadata" (PyRef 4)),
     Raise (NameError "ServerlessApplication")).
Proof.
  apply (recognized_resource_is_written_then_raises (base := resolved_base)
           false APPLICATION_METADATA_HEAP RESOURCES
           [("LocalApp", PyRef 2)] "LocalApp" (PyRef 2)
           [("Type", PyStr "AWS::Serverless::Application");
            ("Properties", PyRef 3);
            ("Metadata", PyRef 4)]
           3 [("Location", PyStr "./child/template.yaml")]);
    reflexivity.
Defined.

Lemma constructed_provider_cannot_enumerate_witness :
  (exists index, functions FUNCTION_provider = Some index) /\
  applications FUNCTION_provider = None /\
  get_all FUNCTION_provider = Raise AttributeError /\
  (forall n, n <> "" -> get FUNCTION_provider (Some n) = Raise AttributeError).
Proof.
  apply (constructed_provider_cannot_enumerate (base := resolved_base)
           FUNCTION_HEAP TEMPLATE PyNone false FUNCTION_HEAP).
  reflexivity.
Defined.

Lemma construction_rejects_malformed_resources_witness :
  __init__ (base := resolved_base) NULL_HEAP TEMPLATE PyNone false
  = (NULL_HEAP, Raise TypeError).
Proof.
  apply (construction_rejects_malformed_resources (base := resolved_base)
           NULL_HEAP TEMPLATE PyNone false NULL_HEAP TEMPLATE
           [("Resources", PyNone)] PyNone);
    reflexivity.
Defined.
